(** * hydra.experimental.initialize: initialization entry points and their
      scoped (context-manager) forms

    A shallow embedding of [hydra/experimental/initialize.py].  The module
    mutates one process-wide object (the [GlobalHydra] singleton), inspects the
    Python call stack and raises exceptions, so the embedding is a state and
    exception monad over a [World] that holds

    - a store of [GlobalHydra] objects and the reference that is currently the
      singleton (so that [copy.deepcopy] and aliasing can be told apart),
    - the Python call stack, innermost frame first.

    The collaborators imported by the module ([Hydra], [GlobalHydra],
    [create_config_search_path], [detect_calling_file_or_module_from_stack_frame],
    [detect_task_name]) are not part of the file; they are modelled from the
    written specification and marked as such. *)

From Stdlib Require Import ZArith Lia Ascii String.
From stdpp Require Import base list strings.

Local Open Scope string_scope.

(** ** Data model *)

Inductive Schema := FileSystem | PackageResource.

Record SearchPathEntry := {
  provider : string;
  path : string;
  schema : Schema
}.

Definition ConfigSearchPath := list SearchPathEntry.

(** What an initialization call installs: [{searchPath, jobName, strict}]. *)
Record RegistryState := {
  searchPath : ConfigSearchPath;
  jobName : string;
  strict : option bool
}.

(** A [GlobalHydra] object: its [hydra] attribute is [None] (absent) or the
    installed state. *)
Abbreviation GlobalHydraObj := (option RegistryState) (only parsing).

(** Exceptions that cross the functions of the module. *)
Inductive exn :=
  | HydraException (msg : string)
  | DetectionError
  | AssertionError
  | UnboundLocalError (name : string)
  | Exception (what : string).

(** A frame of the call stack, by the way caller detection classifies it. *)
Inductive Frame :=
  | NotebookCell
  | ScriptFrame (file : string)
  | ModuleFrame (name : string).

(** References to [GlobalHydra] objects are positions in the store. *)
Abbreviation loc := nat (only parsing).

Record World := {
  heap : list GlobalHydraObj;   (* every GlobalHydra object ever created *)
  live : loc;                   (* the object that is the singleton *)
  stack : list Frame            (* call stack, innermost frame first *)
}.

Definition set_heap (h : list GlobalHydraObj) (w : World) : World :=
  {| heap := h; live := live w; stack := stack w |}.
Definition set_live (l : loc) (w : World) : World :=
  {| heap := heap w; live := l; stack := stack w |}.
Definition set_stack (s : list Frame) (w : World) : World :=
  {| heap := heap w; live := live w; stack := s |}.

(** The singleton refers to an object of the store. *)
Definition wf (w : World) : Prop := live w < length (heap w).

(** The content of the singleton: [Some None] is the uninitialized registry. *)
Definition registry (w : World) : option GlobalHydraObj := heap w !! live w.

(** ** The state and exception monad *)

Inductive outcome (A : Type) :=
  | Ret (a : A)
  | Raise (e : exn).
Arguments Ret {A} a.
Arguments Raise {A} e.

Definition M (A : Type) : Type := World -> outcome A * World.

Definition ret {A} (a : A) : M A := fun w => (Ret a, w).
Definition raise {A} (e : exn) : M A := fun w => (Raise e, w).
Definition bind {A B} (m : M A) (k : A -> M B) : M B :=
  fun w =>
    match m w with
    | (Ret a, w') => k a w'
    | (Raise e, w') => (Raise e, w')
    end.

Declare Scope py_scope.
Delimit Scope py_scope with py.
Notation "'let*' x ':=' m 'in' k" := (bind m (fun x => k))
  (at level 10, x pattern, m at level 100, k at level 200) : py_scope.
Notation "m '>>' k" := (bind m (fun _ => k))
  (at level 60, right associativity) : py_scope.
Local Open Scope py_scope.

(** [try: x = acquire; rest finally: fin]: the [finally] block always runs and
    sees the local [x] bound ([Some]) or still unbound ([None], when [acquire]
    raised).  An exception of the [finally] block replaces the pending one. *)
Definition finish {A} (r : outcome A) (fin : M unit) : M A :=
  fun w =>
    match fin w with
    | (Ret _, w') => (r, w')
    | (Raise e, w') => (Raise e, w')
    end.

Definition try_let_finally {L A} (acquire : M L) (rest : L -> M A)
    (fin : option L -> M unit) : M A :=
  fun w =>
    match acquire w with
    | (Raise e, w1) => finish (Raise e) (fin None) w1
    | (Ret x, w1) =>
        let '(r, w2) := rest x w1 in
        finish r (fin (Some x)) w2
    end.

(** A function call: the callee's frame is on the stack while it runs and is
    removed when it returns or raises. *)
Definition call {A} (fr : Frame) (m : M A) : M A :=
  fun w =>
    let '(r, w') := m (set_stack (fr :: stack w) w) in
    (r, set_stack (tail (stack w')) w').

(** [yield] inside a generator-based context manager entered by [with]: the two
    frames of the manager ([__enter__] and the generator) leave the stack, the
    body of the [with] block runs in the caller's frame, and when the block
    ends, normally or by an exception, the manager's frames are back (for
    [__exit__], which resumes or throws into the generator). *)
Definition yield {A} (body : M A) : M A :=
  fun w =>
    let '(r, w') := body (set_stack (drop 2 (stack w)) w) in
    (r, set_stack (take 2 (stack w) ++ stack w') w').

(** Python call-site arguments: a parameter with a default is either left out
    or passed (and [None] can be passed). *)
Inductive arg (A : Type) :=
  | omitted
  | passed (a : A).
Arguments omitted {A}.
Arguments passed {A} a.

Definition arg_or {A} (default : A) (x : arg A) : A :=
  match x with
  | omitted => default
  | passed a => a
  end.

(** ** Collaborators outside the module *)

(** Modelled from the spec: the search-path rules of [hydra._internal] that
    the module reaches through [Hydra.create_main_hydra_file_or_module] and
    [create_config_search_path] are missing.  The specification fixes the shape
    of the result (user entries first, the framework's built-in entry after
    them) but neither the provider tags nor how a caller-relative specifier is
    resolved, so these are parameters:
    - [user_provider]: the provider tag of a user-supplied entry;
    - [builtin_entry]: the framework's baseline entry, always appended;
    - [caller_search_path calling_file calling_module config_path]: the search
      path built for a caller-relative specifier, or the exception raised when
      building it fails. *)
Class SearchPathBuilder := {
  user_provider : string;
  builtin_entry : SearchPathEntry;
  caller_search_path :
    option string -> option string -> option string -> exn + ConfigSearchPath
}.

(** Modelled from the spec: [create_config_search_path(search_path_dir)] is
    missing.  For an absolute filesystem path the builder emits a single
    [FileSystem] entry rooted there, followed by the built-in entry. *)
Definition create_config_search_path `{SearchPathBuilder}
    (search_path_dir : string) : ConfigSearchPath :=
  [ {| provider := user_provider; path := search_path_dir; schema := FileSystem |};
    builtin_entry ].

(** [os.path.isabs] (POSIX): the path starts with a slash. *)
Module os_path.
Definition isabs (s : string) : bool :=
  match s with
  | String c _ => Ascii.eqb c "/"%char
  | EmptyString => false
  end.
End os_path.

(** Split a string at the last occurrence of a character. *)
Fixpoint rsplit (c : ascii) (s : string) : option (string * string) :=
  match s with
  | EmptyString => None
  | String a t =>
      match rsplit c t with
      | Some (l, r) => Some (String a l, r)
      | None => if Ascii.eqb a c then Some (EmptyString, t) else None
      end
  end.

Fixpoint all_dots (s : string) : bool :=
  match s with
  | EmptyString => true
  | String a t => Ascii.eqb a "."%char && all_dots t
  end.

Definition basename (p : string) : string :=
  match rsplit "/"%char p with
  | Some (_, r) => r
  | None => p
  end.

(** The root of [os.path.splitext] on a base name: the text before the last
    dot, unless only dots (or nothing) precede it. *)
Definition splitext_root (b : string) : string :=
  match rsplit "."%char b with
  | Some (l, _) => if all_dots l then b else l
  | None => b
  end.

Definition last_dotted_component (m : string) : string :=
  match rsplit "."%char m with
  | Some (_, r) => r
  | None => m
  end.

(** Modelled from the spec: [detect_task_name] is missing.  The job name is
    the basename without extension of the calling file if present, else the
    last dotted component of the calling module, else ["app"]. *)
Definition detect_task_name (calling_file calling_module : option string) : string :=
  match calling_file with
  | Some f => splitext_root (basename f)
  | None =>
      match calling_module with
      | Some m => last_dotted_component m
      | None => "app"
      end
  end.

(** The classification of a frame into [(calling_file, calling_module)]. *)
Definition classify (fr : Frame) : option string * option string :=
  match fr with
  | NotebookCell => (None, None)
  | ScriptFrame f => (Some f, None)
  | ModuleFrame m => (None, Some m)
  end.

(** The frame [depth] levels above the innermost frame of [s]. *)
Definition frame_at (s : list Frame) (depth : Z) : option Frame :=
  if (depth <? 0)%Z then None else s !! Z.to_nat depth.

Definition utils_frame : Frame := ModuleFrame "hydra._internal.utils".

(** Modelled from the spec: [detect_calling_file_or_module_from_stack_frame]
    is missing.  It walks [stack_depth] frames up from its own frame (so 1 is
    its direct caller), fails with [DetectionError] when there is no such
    frame, and classifies the frame it finds. *)
Definition detect_calling_file_or_module_from_stack_frame (stack_depth : Z)
    : M (option string * option string) :=
  call utils_frame (fun w =>
    match frame_at (stack w) stack_depth with
    | Some fr => (Ret (classify fr), w)
    | None => (Raise DetectionError, w)
    end).

(** Modelled from the spec: the [GlobalHydra] singleton is missing.
    [instance] returns the reference to the live object, [set_instance]
    makes another object the singleton; [install] replaces the state of an
    object unconditionally, [clear] sets it to absent. *)
Module GlobalHydra.
Definition instance : M loc := fun w => (Ret (live w), w).
Definition set_instance (l : loc) : M unit := fun w => (Ret tt, set_live l w).
Definition is_initialized (self : loc) : M bool :=
  fun w =>
    match heap w !! self with
    | Some (Some _) => (Ret true, w)
    | _ => (Ret false, w)
    end.
Definition install (self : loc) (st : RegistryState) : M unit :=
  fun w => (Ret tt, set_heap (<[self := Some st]> (heap w)) w).
Definition clear (self : loc) : M unit :=
  fun w => (Ret tt, set_heap (<[self := None]> (heap w)) w).
End GlobalHydra.

(** [copy.deepcopy] of a [GlobalHydra] object: a new object with the same
    content, sharing nothing with the original. *)
Module copy.
Definition deepcopy (l : loc) : M loc :=
  fun w => (Ret (length (heap w)),
            set_heap (heap w ++ [mjoin (heap w !! l)]) w).
End copy.

(** Modelled from the spec: the factory methods of [Hydra] are missing.  Both
    install [{searchPath, jobName, strict}] into the singleton; the second one
    first builds the search path for the caller and leaves the registry
    untouched when that fails. *)
Module Hydra.
Definition create_main_hydra2 (task_name : string)
    (config_search_path : ConfigSearchPath) (strict : option bool) : M unit :=
  let* self := GlobalHydra.instance in
  GlobalHydra.install self
    {| searchPath := config_search_path; jobName := task_name; strict := strict |}.

Definition create_main_hydra_file_or_module `{SearchPathBuilder}
    (calling_file calling_module config_path : option string)
    (job_name : string) (strict : option bool) : M unit :=
  match caller_search_path calling_file calling_module config_path with
  | inl e => raise e
  | inr csp => create_main_hydra2 job_name csp strict
  end.
End Hydra.

(** ** The module [hydra.experimental.initialize] *)

Definition this_module : Frame := ModuleFrame "hydra.experimental.initialize".
Definition contextlib_frame : Frame := ModuleFrame "contextlib".

(** [initialize(config_path=None, job_name="app", strict=None,
    caller_stack_depth=1)]. *)
Definition initialize `{SearchPathBuilder}
    (config_path : arg (option string)) (job_name : arg (option string))
    (strict : arg (option bool)) (caller_stack_depth : arg Z) : M unit :=
  let config_path := arg_or None config_path in
  let job_name := arg_or (Some "app") job_name in
  let strict := arg_or None strict in
  let caller_stack_depth := arg_or 1%Z caller_stack_depth in
  call this_module (
    let* (calling_file, calling_module) :=
      detect_calling_file_or_module_from_stack_frame (caller_stack_depth + 1) in
    let job_name :=
      match job_name with
      | None => detect_task_name calling_file calling_module
      | Some j => j
      end in
    Hydra.create_main_hydra_file_or_module
      calling_file calling_module config_path job_name strict).

(** [initialize_config_module(config_module, job_name="app")]. *)
Definition initialize_config_module `{SearchPathBuilder}
    (config_module : string) (job_name : arg string) : M unit :=
  let job_name := arg_or "app" job_name in
  call this_module (
    Hydra.create_main_hydra_file_or_module
      None (Some (config_module +:+ "." +:+ job_name)) None job_name None).

Definition relative_dir_message : string :=
  "initialize_config_dir does not support a module caller with a relative config_dir".

(** [initialize_config_dir(config_dir, job_name=None, caller_stack_depth=1)]. *)
Definition initialize_config_dir `{SearchPathBuilder}
    (config_dir : string) (job_name : arg (option string))
    (caller_stack_depth : arg Z) : M unit :=
  let job_name := arg_or None job_name in
  let caller_stack_depth := arg_or 1%Z caller_stack_depth in
  call this_module (
    let* (calling_file, calling_module) :=
      detect_calling_file_or_module_from_stack_frame (caller_stack_depth + 1) in
    let job_name :=
      match job_name with
      | None => detect_task_name calling_file calling_module
      | Some j => j
      end in
    if os_path.isabs config_dir then
      let csp := create_config_search_path config_dir in
      Hydra.create_main_hydra2 job_name csp None
    else
      match calling_module with
      | Some _ => raise (HydraException relative_dir_message)
      | None =>
          Hydra.create_main_hydra_file_or_module
            calling_file None (Some config_dir) job_name None
      end).

(** [@contextmanager]: entering the [with] statement runs the generator
    function below [__enter__] of [contextlib]. *)
Definition contextmanager {A} (generator : M A) : M A :=
  call contextlib_frame (call this_module generator).

(** The [finally] block of the three managers: [GlobalHydra.set_instance(gh)],
    which fails when the local [gh] was never bound. *)
Definition restore_gh (gh : option loc) : M unit :=
  match gh with
  | Some gh => GlobalHydra.set_instance gh
  | None => raise (UnboundLocalError "gh")
  end.

Definition assert_is_not_None {A} (x : option A) : M A :=
  match x with
  | Some a => ret a
  | None => raise AssertionError
  end.

(** [with initialize_ctx(config_path=None, job_name="app",
    caller_stack_depth=1): body]. *)
Definition initialize_ctx `{SearchPathBuilder} {A}
    (config_path : arg (option string)) (job_name : arg (option string))
    (caller_stack_depth : arg Z) (body : M A) : M A :=
  let config_path := arg_or None config_path in
  let job_name := arg_or (Some "app") job_name in
  let caller_stack_depth := arg_or 1%Z caller_stack_depth in
  contextmanager (
    try_let_finally
      (let* inst := GlobalHydra.instance in copy.deepcopy inst)
      (fun gh =>
         initialize (passed config_path) (passed job_name) omitted
           (passed (caller_stack_depth + 2)%Z) >>
         yield body)
      restore_gh).

(** [with initialize_config_module_ctx(config_module, job_name="app"): body].
    The parameter is annotated [str]; the manager asserts that it is not
    [None] before it binds [gh]. *)
Definition initialize_config_module_ctx `{SearchPathBuilder} {A}
    (config_module : string) (job_name : arg (option string))
    (body : M A) : M A :=
  let job_name := arg_or (Some "app") job_name in
  contextmanager (
    try_let_finally
      (let* job_name := assert_is_not_None job_name in
       let* inst := GlobalHydra.instance in
       let* gh := copy.deepcopy inst in
       ret (job_name, gh))
      (fun '(job_name, gh) =>
         initialize_config_module config_module (passed job_name) >>
         yield body)
      (fun bound => restore_gh (snd <$> bound))).

(** [with initialize_config_dir_ctx(config_dir, job_name="app",
    caller_stack_depth=1): body]. *)
Definition initialize_config_dir_ctx `{SearchPathBuilder} {A}
    (config_dir : string) (job_name : arg (option string))
    (caller_stack_depth : arg Z) (body : M A) : M A :=
  let job_name := arg_or (Some "app") job_name in
  let caller_stack_depth := arg_or 1%Z caller_stack_depth in
  contextmanager (
    try_let_finally
      (let* inst := GlobalHydra.instance in copy.deepcopy inst)
      (fun gh =>
         initialize_config_dir config_dir (passed job_name)
           (passed (caller_stack_depth + 2)%Z) >>
         yield body)
      restore_gh).

(** ** Call sites and clients *)

(** A call of one of the three entry points, with its call-site arguments. *)
Inductive EntryCall :=
  | CallInitialize (config_path : arg (option string))
      (job_name : arg (option string)) (strict : arg (option bool))
      (caller_stack_depth : arg Z)
  | CallConfigModule (config_module : string) (job_name : arg string)
  | CallConfigDir (config_dir : string) (job_name : arg (option string))
      (caller_stack_depth : arg Z).

Definition run_entry `{SearchPathBuilder} (c : EntryCall) : M unit :=
  match c with
  | CallInitialize cp jn s d => initialize cp jn s d
  | CallConfigModule cm jn => initialize_config_module cm jn
  | CallConfigDir dir jn d => initialize_config_dir dir jn d
  end.

(** A [with] statement over one of the three managers. *)
Inductive ScopedCall :=
  | WithInitialize (config_path : arg (option string))
      (job_name : arg (option string)) (caller_stack_depth : arg Z)
  | WithConfigModule (config_module : string) (job_name : arg (option string))
  | WithConfigDir (config_dir : string) (job_name : arg (option string))
      (caller_stack_depth : arg Z).

Definition with_ `{SearchPathBuilder} {A} (c : ScopedCall) (body : M A) : M A :=
  match c with
  | WithInitialize cp jn d => initialize_ctx cp jn d body
  | WithConfigModule cm jn => initialize_config_module_ctx cm jn body
  | WithConfigDir dir jn d => initialize_config_dir_ctx dir jn d body
  end.

(** Direct mutations of the live registry. *)
Inductive Mutation :=
  | Install (st : RegistryState)
  | Clear.

Definition mutate (mu : Mutation) : M unit :=
  let* self := GlobalHydra.instance in
  match mu with
  | Install st => GlobalHydra.install self st
  | Clear => GlobalHydra.clear self
  end.

Fixpoint mutations (ms : list Mutation) : M unit :=
  match ms with
  | [] => ret tt
  | mu :: ms' => mutate mu >> mutations ms'
  end.

(** [snapshot] and [restore] of the registry, as the managers perform them. *)
Definition snapshot : M loc :=
  let* inst := GlobalHydra.instance in copy.deepcopy inst.
Definition restore (gh : loc) : M unit := GlobalHydra.set_instance gh.

(** Reading the registry, and a client-side [try]/[except] that turns the
    outcome of a computation into a value. *)
Definition read_registry : M (option GlobalHydraObj) :=
  fun w => (Ret (registry w), w).
Definition attempt {A} (m : M A) : M (outcome A) :=
  fun w => let '(r, w') := m w in (Ret r, w').

(** The store after a piece of code, seen from the store before it: the
    singleton is still an object of the store, no object disappeared, the
    singleton is the old one or an object created since, and every older
    object other than the old singleton is as it was. *)
Definition evolves (w w' : World) : Prop :=
  wf w' /\
  length (heap w) <= length (heap w') /\
  (live w' = live w \/ length (heap w) <= live w') /\
  (forall l, l < length (heap w) -> l <> live w -> heap w' !! l = heap w !! l).

(** A client of the registry reaches [GlobalHydra] objects only through the
    singleton: it may mutate the live object, create objects and make one of
    them the singleton, but it holds no reference to an object that existed
    before it started other than the singleton (in particular none to the
    local [gh] of an enclosing manager). *)
Definition client {A} (m : M A) : Prop :=
  forall w, wf w -> evolves w (m w).2.

(** The caller's frame as detection sees it from inside an entry point: above
    the frame of the detector and the frame of the entry point. *)
Definition caller_frame (w : World) (caller_stack_depth : Z) : option Frame :=
  frame_at (utils_frame :: this_module :: stack w) (caller_stack_depth + 1).

(** A search-path builder for the examples: a file caller anchors the
    specifier at the directory of the file, a module caller at its parent
    package, and a caller that is neither cannot anchor a specifier. *)
Definition dirname (p : string) : string :=
  match rsplit "/"%char p with
  | Some (l, _) => l
  | None => ""
  end.

Definition sample_builtin : SearchPathEntry :=
  {| provider := "hydra"; path := "hydra.conf"; schema := PackageResource |}.

Definition sample_caller_search_path
    (calling_file calling_module config_path : option string)
    : exn + ConfigSearchPath :=
  match calling_file, calling_module with
  | Some f, _ =>
      inr [ {| provider := "main";
               path := dirname f +:+ "/" +:+ default "" config_path;
               schema := FileSystem |}; sample_builtin ]
  | None, Some m =>
      inr [ {| provider := "main";
               path := default m (fst <$> rsplit "."%char m);
               schema := PackageResource |}; sample_builtin ]
  | None, None =>
      match config_path with
      | Some _ => inl (Exception "no anchor for the config path")
      | None => inr [ sample_builtin ]
      end
  end.

Definition sample_builder : SearchPathBuilder :=
  {| user_provider := "main";
     builtin_entry := sample_builtin;
     caller_search_path := sample_caller_search_path |}.

(** Example worlds: a fresh process (one uninitialized [GlobalHydra]) whose
    caller is a script, an imported module, or a notebook cell. *)
Definition fresh (s : list Frame) : World :=
  {| heap := [None]; live := 0; stack := s |}.
Definition script_world : World := fresh [ScriptFrame "/a/b/my_app.py"].
Definition module_world : World := fresh [ModuleFrame "pkg.sub.runner"].
Definition notebook_world : World := fresh [NotebookCell].

(** The world after [install] on the singleton. *)
Definition installed (st : RegistryState) (w : World) : World :=
  set_heap (<[live w := Some st]> (heap w)) w.

(** The effect of an entry point: it raises and leaves the world as it was,
    or it installs one state into the singleton. *)
Definition entry_effect (r : exn + RegistryState) (w : World) : outcome unit * World :=
  match r with
  | inl e => (Raise e, w)
  | inr st => (Ret tt, installed st w)
  end.

(** The common shape of the three managers: snapshot, initialize, run the
    body, and restore in the [finally] block. *)
Definition scoped_form {A} (init : M unit) (body : M A) : M A :=
  contextmanager (
    try_let_finally snapshot (fun _ => init >> yield body) restore_gh).

(** The world in which the initialization of a manager runs (the snapshot is
    taken, the frames of [__enter__] and of the generator are on the stack),
    and the world the [with] statement leaves behind: the snapshot [gh] is the
    singleton and the manager's frames are gone. *)
Definition entered (w : World) : World :=
  {| heap := heap w ++ [mjoin (registry w)];
     live := live w;
     stack := this_module :: contextlib_frame :: stack w |}.
Definition exited (gh : loc) (s : list Frame) (w : World) : World :=
  {| heap := heap w; live := gh; stack := tail (tail s) |}.

(** What caller detection returns inside an entry point that was called in
    world [w] with the given [caller_stack_depth]. *)
Definition detected (w : World) (caller_stack_depth : Z)
    : outcome (option string * option string) :=
  (detect_calling_file_or_module_from_stack_frame (caller_stack_depth + 1)
     (set_stack (this_module :: stack w) w)).1.

(** The body of an outer [with] statement that holds an inner one: it reads
    the registry when the inner statement is entered and again right after it
    was left, whatever the code around it and the inner statement do. *)
Definition nested_body `{SearchPathBuilder} {P A Q} (s2 : ScopedCall)
    (pre : M P) (inner : M A) (post : M Q)
    : M (option GlobalHydraObj * option GlobalHydraObj) :=
  attempt pre >>
  let* at_entry := read_registry in
  attempt (with_ s2 inner) >>
  let* at_exit := read_registry in
  attempt post >>
  ret (at_entry, at_exit).

(** Sample states and clients for the examples. *)
Definition sample_state (name : string) : RegistryState :=
  {| searchPath := [sample_builtin]; jobName := name; strict := None |}.

Definition failing_body : M unit :=
  mutate (Install (sample_state "scratch")) >>
  mutate Clear >>
  raise (Exception "boom").

(** What a call leaves in the registry when it returns, or the exception it
    raises. *)
Definition installs (m : M unit) (w : World) : outcome (option GlobalHydraObj) :=
  match m w with
  | (Ret _, w') => Ret (registry w')
  | (Raise e, _) => Raise e
  end.

(** Managers nested one in the body of the other, outermost first. *)
Definition nest `{SearchPathBuilder} {A} (scs : list ScopedCall) (body : M A) : M A :=
  foldr with_ body scs.

(** Whether a manager gets as far as binding its local [gh]: all do, except
    the module manager called with [job_name=None], whose assertion fails
    first. *)
Definition binds_gh (sc : ScopedCall) : bool :=
  match sc with
  | WithConfigModule _ (passed None) => false
  | _ => true
  end.

(** * Properties *)

(** ** Closed forms of the entry points *)

Lemma set_stack_same w : set_stack (stack w) w = w.
Proof. by destruct w. Qed.

Lemma initialize_eq `{SearchPathBuilder} cp jn s d w :
  initialize cp jn s d w =
  match caller_frame w (arg_or 1%Z d) with
  | None => (Raise DetectionError, w)
  | Some fr =>
      let j := match arg_or (Some "app") jn with
               | None => detect_task_name (classify fr).1 (classify fr).2
               | Some j => j
               end in
      match caller_search_path (classify fr).1 (classify fr).2 (arg_or None cp) with
      | inl e => (Raise e, w)
      | inr csp =>
          (Ret tt, installed {| searchPath := csp; jobName := j;
                                strict := arg_or None s |} w)
      end
  end.
Proof.
  destruct w as [h l st].
  unfold initialize, caller_frame, call, bind,
    detect_calling_file_or_module_from_stack_frame, call; cbn.
  destruct (frame_at _ _) as [fr|]; [|done].
  destruct (classify fr) as [cf cm]; cbn.
  unfold Hydra.create_main_hydra_file_or_module.
  destruct (caller_search_path _ _ _); done.
Qed.

Lemma initialize_config_module_eq `{SearchPathBuilder} cm jn w :
  initialize_config_module cm jn w =
  let j := arg_or "app" jn in
  match caller_search_path None (Some (cm +:+ "." +:+ j)) None with
  | inl e => (Raise e, w)
  | inr csp =>
      (Ret tt, installed {| searchPath := csp; jobName := j; strict := None |} w)
  end.
Proof.
  destruct w as [h l st].
  unfold initialize_config_module, call,
    Hydra.create_main_hydra_file_or_module; cbn.
  destruct (caller_search_path _ _ _); done.
Qed.

Lemma initialize_config_dir_eq `{SearchPathBuilder} dir jn d w :
  initialize_config_dir dir jn d w =
  match caller_frame w (arg_or 1%Z d) with
  | None => (Raise DetectionError, w)
  | Some fr =>
      let j := match arg_or None jn with
               | None => detect_task_name (classify fr).1 (classify fr).2
               | Some j => j
               end in
      if os_path.isabs dir then
        (Ret tt, installed {| searchPath := create_config_search_path dir;
                              jobName := j; strict := None |} w)
      else
        match (classify fr).2 with
        | Some _ => (Raise (HydraException relative_dir_message), w)
        | None =>
            match caller_search_path (classify fr).1 None (Some dir) with
            | inl e => (Raise e, w)
            | inr csp =>
                (Ret tt, installed {| searchPath := csp; jobName := j;
                                      strict := None |} w)
            end
        end
  end.
Proof.
  destruct w as [h l st].
  unfold initialize_config_dir, caller_frame, call, bind,
    detect_calling_file_or_module_from_stack_frame, call; cbn.
  destruct (frame_at _ _) as [fr|]; [|done].
  destruct (classify fr) as [cf cm]; cbn.
  destruct (os_path.isabs dir); [done|].
  destruct cm; [done|].
  unfold Hydra.create_main_hydra_file_or_module.
  destruct (caller_search_path _ _ _); done.
Qed.

(** Which of the two effects an entry point has, and which state it installs,
    depends on the call stack alone. *)
Lemma run_entry_effect `{SearchPathBuilder} c s :
  exists r, forall w, stack w = s -> run_entry c w = entry_effect r w.
Proof.
  destruct c as [cp jn st d|cm jn|dir jn d]; cbn [run_entry].
  - destruct (frame_at (utils_frame :: this_module :: s) (arg_or 1%Z d + 1)) as [fr|] eqn:E.
    + destruct (caller_search_path (classify fr).1 (classify fr).2 (arg_or None cp))
        as [e|csp] eqn:E2.
      * exists (inl e). intros w <-. rewrite initialize_eq. unfold caller_frame.
        by rewrite E, E2.
      * eexists (inr _). intros w <-. rewrite initialize_eq. unfold caller_frame.
        rewrite E, E2. reflexivity.
    + exists (inl DetectionError). intros w <-. rewrite initialize_eq.
      unfold caller_frame. by rewrite E.
  - destruct (caller_search_path None (Some (cm +:+ "." +:+ arg_or "app" jn)) None)
      as [e|csp] eqn:E2.
    + exists (inl e). intros w _. rewrite initialize_config_module_eq. cbn zeta.
      by rewrite E2.
    + eexists (inr _). intros w _. rewrite initialize_config_module_eq. cbn zeta.
      rewrite E2. reflexivity.
  - destruct (frame_at (utils_frame :: this_module :: s) (arg_or 1%Z d + 1)) as [fr|] eqn:E.
    + destruct (os_path.isabs dir) eqn:Ea.
      * eexists (inr _). intros w <-. rewrite initialize_config_dir_eq.
        unfold caller_frame. rewrite E, Ea. reflexivity.
      * destruct (classify fr).2 eqn:Ecm.
        { exists (inl (HydraException relative_dir_message)). intros w <-.
          rewrite initialize_config_dir_eq. unfold caller_frame.
          by rewrite E, Ea, Ecm. }
        destruct (caller_search_path (classify fr).1 None (Some dir)) as [e|csp] eqn:E2.
        { exists (inl e). intros w <-. rewrite initialize_config_dir_eq.
          unfold caller_frame. by rewrite E, Ea, Ecm, E2. }
        eexists (inr _). intros w <-. rewrite initialize_config_dir_eq.
        unfold caller_frame. rewrite E, Ea, Ecm, E2. reflexivity.
    + exists (inl DetectionError). intros w <-. rewrite initialize_config_dir_eq.
      unfold caller_frame. by rewrite E.
Qed.

(** ** How the store evolves *)

Lemma evolves_refl w : wf w -> evolves w w.
Proof. intros Hw. repeat split; auto. Qed.

Lemma evolves_trans w1 w2 w3 : evolves w1 w2 -> evolves w2 w3 -> evolves w1 w3.
Proof.
  intros (_ & Hlen12 & Hlive12 & Hold12) (Hwf3 & Hlen23 & Hlive23 & Hold23).
  repeat split; [done|lia| |].
  - destruct Hlive23 as [->|?]; [done|]. right; lia.
  - intros l Hl Hne. rewrite Hold23, Hold12; [done..|lia|].
    destruct Hlive12 as [->|?]; [done|lia].
Qed.

Lemma evolves_same_store w1 w1' w2 w2' :
  heap w1' = heap w1 -> live w1' = live w1 ->
  heap w2' = heap w2 -> live w2' = live w2 ->
  evolves w1 w2 -> evolves w1' w2'.
Proof.
  unfold evolves, wf. intros -> -> -> ->. done.
Qed.

Lemma evolves_update x w :
  wf w -> evolves w (set_heap (<[live w := x]> (heap w)) w).
Proof.
  intros Hw. unfold evolves, wf; cbn. rewrite length_insert.
  repeat split; [done|lia|by left|].
  intros l _ Hne. by rewrite list_lookup_insert_ne.
Qed.

Lemma evolves_alloc x w :
  wf w -> evolves w (set_heap (heap w ++ [x]) w).
Proof.
  intros Hw. unfold evolves, wf in *; cbn. rewrite length_app; cbn.
  repeat split; [lia|lia|by left|].
  intros l Hl _. by rewrite lookup_app_l.
Qed.

(** ** Clients of the registry *)

Lemma client_ret {A} (a : A) : client (ret a).
Proof. intros w Hw. by apply evolves_refl. Qed.

Lemma client_raise {A} e : client (raise (A:=A) e).
Proof. intros w Hw. by apply evolves_refl. Qed.

Lemma client_bind {A B} (m : M A) (k : A -> M B) :
  client m -> (forall a, client (k a)) -> client (bind m k).
Proof.
  intros Hm Hk w Hw. unfold bind. specialize (Hm w Hw).
  destruct (m w) as [[a|e] w1]; [|done]. cbn in Hm.
  eapply evolves_trans; [done|]. apply Hk, Hm.
Qed.

Lemma client_call {A} fr (m : M A) : client m -> client (call fr m).
Proof.
  intros Hm w Hw. unfold call.
  specialize (Hm (set_stack (fr :: stack w) w) Hw).
  destruct (m _) as [r w1]. cbn in *.
  by eapply evolves_same_store, Hm.
Qed.

Lemma client_yield {A} (body : M A) : client body -> client (yield body).
Proof.
  intros Hm w Hw. unfold yield.
  specialize (Hm (set_stack (drop 2 (stack w)) w) Hw).
  destruct (body _) as [r w1]. cbn in *.
  by eapply evolves_same_store, Hm.
Qed.

Lemma client_attempt {A} (m : M A) : client m -> client (attempt m).
Proof.
  intros Hm w Hw. unfold attempt. specialize (Hm w Hw).
  by destruct (m w) as [r w1].
Qed.

Lemma client_read_registry : client read_registry.
Proof. intros w Hw. by apply evolves_refl. Qed.

Lemma client_mutate mu : client (mutate mu).
Proof. intros w Hw. destruct mu; by apply evolves_update. Qed.

Lemma client_mutations ms : client (mutations ms).
Proof.
  induction ms as [|mu ms IH]; [apply client_ret|].
  apply client_bind; [apply client_mutate|done].
Qed.

Create HintDb client.
#[local] Hint Resolve client_ret client_raise client_bind client_call
  client_yield client_attempt client_read_registry client_mutate
  client_mutations : client.

Lemma client_run_entry `{SearchPathBuilder} c : client (run_entry c).
Proof.
  intros w Hw. destruct (run_entry_effect c (stack w)) as [r Hr].
  rewrite Hr by done. destruct r as [e|st]; cbn.
  - by apply evolves_refl.
  - by apply evolves_update.
Qed.

(** ** The managers *)

Lemma scoped_form_unfold {A} init (body : M A) w :
  scoped_form init body w =
  match init (entered w) with
  | (Raise e, w2) => (Raise e, exited (length (heap w)) (stack w2) w2)
  | (Ret _, w2) =>
      let '(r, w3) := body (set_stack (drop 2 (stack w2)) w2) in
      (r, exited (length (heap w)) (take 2 (stack w2) ++ stack w3) w3)
  end.
Proof.
  destruct w as [h l s].
  unfold scoped_form, contextmanager, call, try_let_finally, snapshot, bind,
    finish, restore_gh, yield, entered, registry; cbn.
  destruct (init _) as [[[]|e] w2]; cbn; [|done].
  by destruct (body _) as [r w3].
Qed.

Lemma initialize_ctx_scoped `{SearchPathBuilder} {A} cp jn d (body : M A) :
  initialize_ctx cp jn d body =
  scoped_form
    (initialize (passed (arg_or None cp)) (passed (arg_or (Some "app") jn))
       omitted (passed (arg_or 1 d + 2)%Z))
    body.
Proof. reflexivity. Qed.

Lemma initialize_config_dir_ctx_scoped `{SearchPathBuilder} {A} dir jn d (body : M A) :
  initialize_config_dir_ctx dir jn d body =
  scoped_form
    (initialize_config_dir dir (passed (arg_or (Some "app") jn))
       (passed (arg_or 1 d + 2)%Z))
    body.
Proof. reflexivity. Qed.

Lemma initialize_config_module_ctx_scoped `{SearchPathBuilder} {A} cm jn j
    (body : M A) w :
  arg_or (Some "app") jn = Some j ->
  initialize_config_module_ctx cm jn body w =
  scoped_form (initialize_config_module cm (passed j)) body w.
Proof.
  intros Hj. unfold initialize_config_module_ctx. rewrite Hj.
  destruct w as [h l s]. reflexivity.
Qed.

(** Without a job name the module manager fails its assertion before [gh] is
    bound, so its [finally] block raises in turn; nothing else happened. *)
Lemma initialize_config_module_ctx_None `{SearchPathBuilder} {A} cm (body : M A) w :
  initialize_config_module_ctx cm (passed None) body w =
  (Raise (UnboundLocalError "gh"), w).
Proof. by destruct w. Qed.

Lemma wf_entered w : wf w -> wf (entered w).
Proof. unfold wf, entered; cbn. rewrite length_app. lia. Qed.

Lemma evolves_entered w : wf w -> evolves w (entered w).
Proof.
  intros Hw. eapply evolves_same_store, (evolves_alloc (mjoin (registry w)) w Hw); done.
Qed.

Lemma snapshot_content w :
  wf w -> heap (entered w) !! length (heap w) = registry w.
Proof.
  intros Hw. unfold entered, registry. cbn [heap].
  destruct (lookup_lt_is_Some_2 (heap w) (live w) Hw) as [c Hc].
  rewrite Hc. by apply list_lookup_middle.
Qed.

(** Whatever a client does after the snapshot was taken, making the snapshot
    the singleton gives back the registry as it was. *)
Lemma exited_restores w w' s :
  wf w -> evolves (entered w) w' ->
  registry (exited (length (heap w)) s w') = registry w /\
  evolves w (exited (length (heap w)) s w').
Proof.
  intros Hw (Hwf' & Hlen & Hlive & Hold).
  assert (Hlen1 : length (heap (entered w)) = S (length (heap w))).
  { unfold entered; cbn. rewrite length_app; cbn. lia. }
  assert (Hgh : heap w' !! length (heap w) = registry w).
  { rewrite Hold; [by apply snapshot_content|lia|].
    unfold wf in Hw. cbn. lia. }
  split; [done|].
  unfold evolves, wf, exited; cbn. repeat split; [lia|lia|by right|].
  intros l Hl Hne. rewrite Hold; [|lia|done].
  unfold entered; cbn. by rewrite lookup_app_l.
Qed.

Lemma evolves_body {A} (body : M A) w s :
  client body -> wf w -> evolves w (body (set_stack s w)).2.
Proof.
  intros Hb Hw. eapply evolves_same_store, (Hb (set_stack s w)); done.
Qed.

Lemma scoped_form_restores {A} init (body : M A) w :
  client init -> client body -> wf w ->
  registry (scoped_form init body w).2 = registry w /\
  evolves w (scoped_form init body w).2.
Proof.
  intros Hi Hb Hw. rewrite scoped_form_unfold.
  pose proof (Hi (entered w) (wf_entered w Hw)) as Hi'.
  destruct (init (entered w)) as [[[]|e] w2]; cbn in Hi'.
  - pose proof (evolves_body body w2 (drop 2 (stack w2)) Hb (proj1 Hi')) as Hb'.
    destruct (body _) as [r w3]; cbn in *.
    apply exited_restores; [done|]. by eapply evolves_trans.
  - cbn. by apply exited_restores.
Qed.

(** When the [with] statement returns a value, its body ran, in a sound
    world, and returned that value. *)
Lemma scoped_form_returns {A} init (body : M A) w x :
  client init -> wf w ->
  (scoped_form init body w).1 = Ret x ->
  exists w_in, wf w_in /\ (body w_in).1 = Ret x.
Proof.
  intros Hi Hw. rewrite scoped_form_unfold.
  pose proof (Hi (entered w) (wf_entered w Hw)) as Hi'.
  destruct (init (entered w)) as [[[]|e] w2]; cbn in Hi'; [|done].
  destruct (body _) as [r w3] eqn:Eb; cbn. intros ->.
  exists (set_stack (drop 2 (stack w2)) w2). split; [apply Hi'|by rewrite Eb].
Qed.

Lemma client_initialize `{SearchPathBuilder} cp jn s d : client (initialize cp jn s d).
Proof. apply (client_run_entry (CallInitialize cp jn s d)). Qed.

Lemma client_initialize_config_module `{SearchPathBuilder} cm jn :
  client (initialize_config_module cm jn).
Proof. apply (client_run_entry (CallConfigModule cm jn)). Qed.

Lemma client_initialize_config_dir `{SearchPathBuilder} dir jn d :
  client (initialize_config_dir dir jn d).
Proof. apply (client_run_entry (CallConfigDir dir jn d)). Qed.

(** Each manager is the common shape around its entry point, except the
    module manager without a job name, which does nothing but raise. *)
Lemma with_cases `{SearchPathBuilder} {A} sc (body : M A) w :
  (exists init, client init /\ with_ sc body w = scoped_form init body w) \/
  with_ sc body w = (Raise (UnboundLocalError "gh"), w).
Proof.
  destruct sc as [cp jn d|cm jn|dir jn d]; cbn [with_].
  - left. eexists. split; [|by rewrite initialize_ctx_scoped].
    apply client_initialize.
  - destruct (arg_or (Some "app") jn) as [j|] eqn:Ej.
    + left. eexists. split; [|by apply initialize_config_module_ctx_scoped].
      apply client_initialize_config_module.
    + right. destruct jn as [|[j|]]; [done..|].
      apply initialize_config_module_ctx_None.
  - left. eexists. split; [|by rewrite initialize_config_dir_ctx_scoped].
    apply client_initialize_config_dir.
Qed.

Lemma with_restores `{SearchPathBuilder} {A} sc (body : M A) w :
  client body -> wf w ->
  registry (with_ sc body w).2 = registry w /\ evolves w (with_ sc body w).2.
Proof.
  intros Hb Hw. destruct (with_cases sc body w) as [(init & Hi & ->)| ->].
  - by apply scoped_form_restores.
  - split; [done|by apply evolves_refl].
Qed.

Lemma with_returns `{SearchPathBuilder} {A} sc (body : M A) w x :
  wf w -> (with_ sc body w).1 = Ret x ->
  exists w_in, wf w_in /\ (body w_in).1 = Ret x.
Proof.
  intros Hw. destruct (with_cases sc body w) as [(init & Hi & ->)| ->]; [|done].
  by apply scoped_form_returns.
Qed.

(** A [with] statement over a client is a client, so managers nest. *)
Lemma client_with `{SearchPathBuilder} {A} sc (body : M A) :
  client body -> client (with_ sc body).
Proof. intros Hb w Hw. by apply with_restores. Qed.

Lemma registry_installed st w : wf w -> registry (installed st w) = Some (Some st).
Proof. intros Hw. by apply list_lookup_insert_eq. Qed.

Lemma wf_installed st w : wf w -> wf (installed st w).
Proof. unfold wf, installed; cbn. by rewrite length_insert. Qed.

Lemma client_failing_body : client failing_body.
Proof. unfold failing_body. auto with client. Qed.

Lemma wf_fresh s : wf (fresh s).
Proof. unfold wf; cbn. lia. Qed.

(** ** Scoped initialization *)

(** C1: for each of the three managers and every starting registry, when the
    [with] statement is left (its body completed, its body raised, or the
    initialization inside the manager raised) the registry equals the registry
    at entry; an uninitialized registry is uninitialized again. *)
Theorem scope_exit_restores_registry `{SearchPathBuilder} {A}
    (sc : ScopedCall) (body : M A) (w : World) :
  client body -> wf w ->
  registry (with_ sc body w).2 = registry w /\
  (registry w = Some None -> registry (with_ sc body w).2 = Some None).
Proof.
  intros Hb Hw. destruct (with_restores sc body w Hb Hw) as [Hr _].
  split; [done|]. by intros <-.
Qed.

Lemma scope_exit_restores_registry_witness :
  registry (@with_ sample_builder unit
              (WithInitialize (passed (Some "conf")) omitted omitted)
              failing_body script_world).2 = registry script_world /\
  (registry script_world = Some None ->
   registry (@with_ sample_builder unit
               (WithInitialize (passed (Some "conf")) omitted omitted)
               failing_body script_world).2 = Some None).
Proof.
  apply (@scope_exit_restores_registry sample_builder unit
           (WithInitialize (passed (Some "conf")) omitted omitted)
           failing_body script_world client_failing_body (wf_fresh _)).
Defined.

(** The three ways out of a manager, run on the sample builder: the body
    completes, the body raises, the initialization raises (a module caller
    with a relative directory); the registry was uninitialized and is so again. *)
Example scope_exit_normal :
  let r := @initialize_ctx sample_builder _ (passed (Some "conf")) omitted omitted
             read_registry script_world in
  r.1 = Ret (Some (Some {| searchPath :=
                             [ {| provider := "main"; path := "/a/b/conf";
                                  schema := FileSystem |}; sample_builtin ];
                           jobName := "app"; strict := None |})) /\
  registry r.2 = Some None.
Proof. split; reflexivity. Qed.

Example scope_exit_body_raises :
  let r := @initialize_config_module_ctx sample_builder _ "pkg.conf" omitted
             failing_body script_world in
  r.1 = Raise (Exception "boom") /\ registry r.2 = Some None.
Proof. split; reflexivity. Qed.

Example scope_exit_initialization_raises :
  let r := @initialize_config_dir_ctx sample_builder _ "conf" omitted omitted
             read_registry module_world in
  r.1 = Raise (HydraException relative_dir_message) /\ registry r.2 = Some None.
Proof. split; reflexivity. Qed.

Lemma client_nested_body `{SearchPathBuilder} {P A Q} s2 (pre : M P)
    (inner : M A) (post : M Q) :
  client pre -> client inner -> client post ->
  client (nested_body s2 pre inner post).
Proof.
  intros Hpre Hin Hpost. unfold nested_body.
  pose proof (client_with s2 inner Hin). auto 10 with client.
Qed.

Lemma nested_body_observation `{SearchPathBuilder} {P A Q} s2 (pre : M P)
    (inner : M A) (post : M Q) w at_entry at_exit :
  client pre -> client inner -> wf w ->
  (nested_body s2 pre inner post w).1 = Ret (at_entry, at_exit) ->
  at_exit = at_entry.
Proof.
  intros Hpre Hin Hw. unfold nested_body, bind, attempt, read_registry, ret.
  pose proof (Hpre w Hw) as (Hw1 & _).
  destruct (pre w) as [r1 w1]; cbn in Hw1.
  pose proof (with_restores s2 inner w1 Hin Hw1) as [Hreg _].
  destruct (with_ s2 inner w1) as [r2 w2]; cbn in Hreg.
  destruct (post w2) as [r3 w3]; cbn.
  intros [= <- <-]. done.
Qed.

(** C2: with a manager S2 nested in the body of a manager S1, the registry
    right after S2 is left equals the registry S2 found at entry (what S1
    installed and the code before S2 made of it), and after S1 is left it
    equals the registry before S1, whatever the code around and inside S2
    does to the registry. *)
Theorem nested_scopes_restore_lifo `{SearchPathBuilder} {P A Q}
    (s1 s2 : ScopedCall) (pre : M P) (inner : M A) (post : M Q) (w : World) :
  client pre -> client inner -> client post -> wf w ->
  registry (with_ s1 (nested_body s2 pre inner post) w).2 = registry w /\
  (forall at_entry at_exit,
     (with_ s1 (nested_body s2 pre inner post) w).1 = Ret (at_entry, at_exit) ->
     at_exit = at_entry).
Proof.
  intros Hpre Hin Hpost Hw. split.
  - by apply with_restores, Hw; apply client_nested_body.
  - intros a b Hret.
    destruct (with_returns s1 _ w _ Hw Hret) as (w_in & Hw_in & Hobs).
    exact (nested_body_observation s2 pre inner post w_in a b Hpre Hin Hw_in Hobs).
Qed.

Lemma nested_scopes_restore_lifo_witness :
  registry (@with_ sample_builder _
              (WithInitialize (passed (Some "conf")) (passed (Some "outer")) omitted)
              (@nested_body sample_builder _ _ _
                 (WithConfigModule "pkg.conf" (passed (Some "inner")))
                 (mutate Clear) failing_body (mutate Clear))
              script_world).2 = registry script_world /\
  (forall at_entry at_exit,
     (@with_ sample_builder _
        (WithInitialize (passed (Some "conf")) (passed (Some "outer")) omitted)
        (@nested_body sample_builder _ _ _
           (WithConfigModule "pkg.conf" (passed (Some "inner")))
           (mutate Clear) failing_body (mutate Clear))
        script_world).1 = Ret (at_entry, at_exit) ->
     at_exit = at_entry).
Proof.
  apply (@nested_scopes_restore_lifo sample_builder _ _ _
           (WithInitialize (passed (Some "conf")) (passed (Some "outer")) omitted)
           (WithConfigModule "pkg.conf" (passed (Some "inner")))
           (mutate Clear) failing_body (mutate Clear) script_world
           (client_mutate Clear) client_failing_body (client_mutate Clear)
           (wf_fresh _)).
Defined.

(** Two nested managers on the sample builder: the job name read in the outer
    body, in the inner body, and again in the outer body after the inner
    manager was left; afterwards the registry is uninitialized as before. *)
Example nested_scopes_run :
  let r := @initialize_ctx sample_builder _ (passed (Some "conf"))
             (passed (Some "outer")) omitted
             (let* a := read_registry in
              let* b := @initialize_config_module_ctx sample_builder _ "pkg.conf"
                          (passed (Some "inner")) read_registry in
              let* c := read_registry in
              ret (jobName <$> mjoin a, jobName <$> mjoin b, jobName <$> mjoin c))
             script_world in
  r.1 = Ret (Some "outer", Some "inner", Some "outer") /\
  registry r.2 = Some None.
Proof. split; reflexivity. Qed.

(** ** Snapshot and restore *)

Lemma mutations_evolves ms w : wf w -> evolves w (mutations ms w).2.
Proof. apply client_mutations. Qed.

(** C6: the snapshot taken at entry is a new object with the content of the
    registry (also when the registry is uninitialized); no sequence of
    install and clear on the live registry changes it, and restoring it
    gives the registry exactly as it was when the snapshot was taken. *)
Theorem snapshot_independent_of_live_registry (ms : list Mutation) (w : World) :
  wf w ->
  let gh := length (heap w) in
  let w1 := (snapshot w).2 in
  let w2 := (mutations ms w1).2 in
  (snapshot w).1 = Ret gh /\
  gh <> live w1 /\
  heap w1 !! gh = registry w /\
  heap w2 !! gh = registry w /\
  registry (restore gh w2).2 = registry w.
Proof.
  intros Hw gh w1 w2.
  assert (Hw1 : w1 = set_stack (stack w) (entered w)) by (by destruct w).
  assert (Hgh : heap w1 !! gh = registry w).
  { rewrite Hw1. by apply snapshot_content. }
  assert (Hne : gh <> live w1).
  { rewrite Hw1. unfold gh, wf in *. cbn. lia. }
  assert (Hwf1 : wf w1).
  { rewrite Hw1. apply (wf_entered w Hw). }
  assert (Hlt : gh < length (heap w1)).
  { rewrite Hw1. unfold gh. cbn. rewrite length_app. cbn. lia. }
  destruct (mutations_evolves ms w1 Hwf1) as (_ & _ & _ & Hold).
  fold w2 in Hold.
  assert (Hgh2 : heap w2 !! gh = registry w) by (by rewrite Hold).
  repeat split; [by destruct w|done..].
Qed.

Lemma snapshot_independent_of_live_registry_witness :
  let ms := [Install (sample_state "one"); Clear; Install (sample_state "two")] in
  let w := installed (sample_state "zero") script_world in
  let gh := length (heap w) in
  let w1 := (snapshot w).2 in
  let w2 := (mutations ms w1).2 in
  (snapshot w).1 = Ret gh /\
  gh <> live w1 /\
  heap w1 !! gh = registry w /\
  heap w2 !! gh = registry w /\
  registry (restore gh w2).2 = registry w.
Proof.
  apply (snapshot_independent_of_live_registry
           [Install (sample_state "one"); Clear; Install (sample_state "two")]
           (installed (sample_state "zero") script_world)
           (wf_installed _ _ (wf_fresh _))).
Defined.

(** A snapshot that is only another reference to the live object (no
    [copy.deepcopy]) would follow every mutation and restore nothing. *)
Example alias_is_no_snapshot :
  let w := installed (sample_state "zero") script_world in
  let '(gh, w1) := (live w, w) in
  let w2 := (mutations [Clear] w1).2 in
  registry (restore gh w2).2 = Some None /\ registry w = Some (Some (sample_state "zero")).
Proof. split; reflexivity. Qed.

(** ** Caller detection inside the entry points *)

Lemma detected_eq w d :
  detected w d =
  match caller_frame w d with
  | Some fr => Ret (classify fr)
  | None => Raise DetectionError
  end.
Proof.
  unfold detected, detect_calling_file_or_module_from_stack_frame, call,
    caller_frame; cbn.
  by destruct (frame_at _ _).
Qed.

Lemma detected_Ret w d ctx :
  detected w d = Ret ctx -> exists fr, caller_frame w d = Some fr /\ classify fr = ctx.
Proof.
  rewrite detected_eq. destruct (caller_frame w d) as [fr|]; [|done].
  intros [= <-]. by exists fr.
Qed.

Lemma detected_Raise w d e :
  detected w d = Raise e -> caller_frame w d = None /\ e = DetectionError.
Proof.
  rewrite detected_eq. destruct (caller_frame w d) as [fr|]; [done|].
  by intros [= <-].
Qed.

(** The two frames of a manager and the two levels it adds to
    [caller_stack_depth] cancel out. *)
Lemma caller_frame_entered w d :
  (1 <= d)%Z -> caller_frame (entered w) (d + 2) = caller_frame w d.
Proof.
  intros Hd. unfold caller_frame, frame_at, entered; cbn [stack].
  destruct (Z.ltb_spec (d + 2 + 1) 0); [lia|].
  destruct (Z.ltb_spec (d + 1) 0); [lia|].
  replace (Z.to_nat (d + 2 + 1)) with (4 + Z.to_nat (d - 1)) by lia.
  replace (Z.to_nat (d + 1)) with (2 + Z.to_nat (d - 1)) by lia.
  reflexivity.
Qed.

(** ** The entry points *)

(** C3: [initialize_config_dir] with a relative [config_dir] and a detected
    module caller ([calling_module] is not [None]) raises the
    [HydraException] of the unsupported caller and leaves the world, hence
    the registry, exactly as it was. *)
Theorem relative_dir_module_caller_rejected `{SearchPathBuilder}
    (config_dir : string) (job_name : arg (option string))
    (caller_stack_depth : arg Z) (w : World)
    (calling_file : option string) (calling_module : string) :
  os_path.isabs config_dir = false ->
  detected w (arg_or 1%Z caller_stack_depth) = Ret (calling_file, Some calling_module) ->
  initialize_config_dir config_dir job_name caller_stack_depth w =
    (Raise (HydraException relative_dir_message), w).
Proof.
  intros Hrel Hdet. destruct (detected_Ret _ _ _ Hdet) as (fr & Hfr & Hcl).
  rewrite initialize_config_dir_eq, Hfr, Hrel, Hcl. reflexivity.
Qed.

Lemma relative_dir_module_caller_rejected_witness :
  @initialize_config_dir sample_builder "relative/dir" omitted omitted module_world =
    (Raise (HydraException relative_dir_message), module_world).
Proof.
  apply (@relative_dir_module_caller_rejected sample_builder "relative/dir"
           omitted omitted module_world None "pkg.sub.runner");
    reflexivity.
Defined.

(** C10: [initialize_config_dir] runs caller detection before it looks at
    [config_dir] or [job_name]: when detection raises, the call raises the
    same exception whatever the directory (absolute or not) and the job name
    (given or not), and the world, hence the registry, is as it was. *)
Theorem detection_failure_aborts_config_dir `{SearchPathBuilder}
    (config_dir : string) (job_name : arg (option string))
    (caller_stack_depth : arg Z) (w : World) (e : exn) :
  detected w (arg_or 1%Z caller_stack_depth) = Raise e ->
  e = DetectionError /\
  initialize_config_dir config_dir job_name caller_stack_depth w = (Raise e, w).
Proof.
  intros Hdet. destruct (detected_Raise _ _ _ Hdet) as [Hfr ->].
  split; [done|]. by rewrite initialize_config_dir_eq, Hfr.
Qed.

Lemma detection_failure_aborts_config_dir_witness :
  DetectionError = DetectionError /\
  @initialize_config_dir sample_builder "/abs/dir" (passed (Some "x")) (passed 5%Z)
    script_world = (Raise DetectionError, script_world).
Proof.
  apply (@detection_failure_aborts_config_dir sample_builder "/abs/dir"
           (passed (Some "x")) (passed 5%Z) script_world DetectionError).
  reflexivity.
Defined.

(** C5: with an absolute [config_dir] and a given job name,
    [initialize_config_dir] succeeds whatever caller detection finds, and two
    runs that differ in the detected caller (script, module or notebook
    cell) leave equal registries: the search path of the directory, the job
    name, no [strict]. *)
Theorem absolute_dir_independent_of_caller `{SearchPathBuilder}
    (config_dir job_name : string) (caller_stack_depth : arg Z)
    (w1 w2 : World) (ctx1 ctx2 : option string * option string) :
  os_path.isabs config_dir = true ->
  wf w1 -> wf w2 ->
  detected w1 (arg_or 1%Z caller_stack_depth) = Ret ctx1 ->
  detected w2 (arg_or 1%Z caller_stack_depth) = Ret ctx2 ->
  let r1 := initialize_config_dir config_dir (passed (Some job_name))
              caller_stack_depth w1 in
  let r2 := initialize_config_dir config_dir (passed (Some job_name))
              caller_stack_depth w2 in
  r1.1 = Ret tt /\ r2.1 = Ret tt /\
  registry r1.2 = registry r2.2 /\
  registry r1.2 =
    Some (Some {| searchPath := create_config_search_path config_dir;
                  jobName := job_name; strict := None |}).
Proof.
  intros Habs Hw1 Hw2 Hd1 Hd2 r1 r2.
  destruct (detected_Ret _ _ _ Hd1) as (fr1 & Hfr1 & _).
  destruct (detected_Ret _ _ _ Hd2) as (fr2 & Hfr2 & _).
  unfold r1, r2. rewrite !initialize_config_dir_eq, Hfr1, Hfr2, Habs. cbn [fst snd].
  rewrite !registry_installed by done. done.
Qed.

Lemma absolute_dir_independent_of_caller_witness :
  let r1 := @initialize_config_dir sample_builder "/abs/dir" (passed (Some "x"))
              omitted script_world in
  let r2 := @initialize_config_dir sample_builder "/abs/dir" (passed (Some "x"))
              omitted (installed (sample_state "old") module_world) in
  r1.1 = Ret tt /\ r2.1 = Ret tt /\
  registry r1.2 = registry r2.2 /\
  registry r1.2 =
    Some (Some {| searchPath := @create_config_search_path sample_builder "/abs/dir";
                  jobName := "x"; strict := None |}).
Proof.
  apply (@absolute_dir_independent_of_caller sample_builder "/abs/dir" "x" omitted
           script_world (installed (sample_state "old") module_world)
           (Some "/a/b/my_app.py", None) (None, Some "pkg.sub.runner")
           eq_refl (wf_fresh _) (wf_installed _ _ (wf_fresh _)) eq_refl eq_refl).
Defined.

Example absolute_dir_from_notebook :
  registry (@initialize_config_dir sample_builder "/abs/dir" (passed (Some "x"))
              omitted notebook_world).2 =
  registry (@initialize_config_dir sample_builder "/abs/dir" (passed (Some "x"))
              omitted script_world).2.
Proof. reflexivity. Qed.

Lemma run_entry_success `{SearchPathBuilder} c r w :
  run_entry c w = entry_effect r w -> (run_entry c w).1 = Ret tt ->
  exists st, r = inr st.
Proof.
  intros ->. destruct r as [e|st]; [done|]. by exists st.
Qed.

(** C4: when two calls of entry points succeed one after the other, the
    registry holds exactly what the second call installs on its own, from the
    world before the first call or from any other world with the same call
    stack: the first call's state is replaced as a whole. *)
Theorem second_call_replaces_first `{SearchPathBuilder}
    (c1 c2 : EntryCall) (w w0 : World) :
  wf w -> wf w0 -> stack w0 = stack w ->
  (run_entry c1 w).1 = Ret tt ->
  (run_entry c2 (run_entry c1 w).2).1 = Ret tt ->
  (run_entry c2 w0).1 = Ret tt /\
  registry (run_entry c2 (run_entry c1 w).2).2 = registry (run_entry c2 w0).2 /\
  exists st, registry (run_entry c2 (run_entry c1 w).2).2 = Some (Some st).
Proof.
  intros Hw Hw0 Hst H1 H2.
  destruct (run_entry_effect c1 (stack w)) as [r1 Hr1].
  destruct (run_entry_effect c2 (stack w)) as [r2 Hr2].
  destruct (run_entry_success c1 r1 w (Hr1 w eq_refl) H1) as [st1 ->].
  rewrite (Hr1 w eq_refl) in H2 |- *. cbn [entry_effect snd] in H2 |- *.
  destruct (run_entry_success c2 r2 _ (Hr2 (installed st1 w) eq_refl) H2) as [st2 ->].
  rewrite (Hr2 (installed st1 w) eq_refl), (Hr2 w0 Hst). cbn [entry_effect fst snd].
  rewrite !registry_installed by (by try apply wf_installed). eauto.
Qed.

Lemma second_call_replaces_first_witness :
  let c1 := CallInitialize (passed (Some "conf")) omitted omitted omitted in
  let c2 := CallConfigModule "pkg.conf" (passed "job") in
  (@run_entry sample_builder c2 script_world).1 = Ret tt /\
  registry (@run_entry sample_builder c2
              (@run_entry sample_builder c1 script_world).2).2 =
    registry (@run_entry sample_builder c2 script_world).2 /\
  exists st, registry (@run_entry sample_builder c2
                         (@run_entry sample_builder c1 script_world).2).2 =
             Some (Some st).
Proof.
  apply (@second_call_replaces_first sample_builder
           (CallInitialize (passed (Some "conf")) omitted omitted omitted)
           (CallConfigModule "pkg.conf" (passed "job"))
           script_world script_world
           (wf_fresh _) (wf_fresh _) eq_refl eq_refl eq_refl).
Defined.

(** The search path after two calls is the second call's, entry for entry. *)
Example second_call_search_path :
  let w := (@initialize_config_dir sample_builder "/second" (passed (Some "b")) omitted
              (@initialize sample_builder (passed (Some "first")) (passed (Some "a"))
                 omitted omitted script_world).2).2 in
  searchPath <$> mjoin (registry w) =
    Some [ {| provider := "main"; path := "/second"; schema := FileSystem |};
           sample_builtin ] /\
  jobName <$> mjoin (registry w) = Some "b".
Proof. split; reflexivity. Qed.

(** C7: [initialize_config_module] installs what
    [Hydra.create_main_hydra_file_or_module] builds from no calling file, the
    calling module [config_module + "." + job_name], no config path, the job
    name and no [strict]; it does not look at the call stack: on any stack,
    also the empty one, the outcome and the store are the same. *)
Theorem config_module_uses_no_caller_detection `{SearchPathBuilder}
    (config_module : string) (job_name : arg string) (w : World) :
  let j := arg_or "app" job_name in
  let run := initialize_config_module config_module job_name in
  run w =
    Hydra.create_main_hydra_file_or_module
      None (Some (config_module +:+ "." +:+ j)) None j None w /\
  run w =
    entry_effect
      match caller_search_path None (Some (config_module +:+ "." +:+ j)) None with
      | inl e => inl e
      | inr csp => inr {| searchPath := csp; jobName := j; strict := None |}
      end w /\
  forall s : list Frame,
    (run (set_stack s w)).1 = (run w).1 /\
    heap (run (set_stack s w)).2 = heap (run w).2 /\
    live (run (set_stack s w)).2 = live (run w).2 /\
    stack (run (set_stack s w)).2 = s.
Proof.
  intros j run. unfold run. split; [|split].
  - destruct w as [h l s].
    unfold initialize_config_module, call, Hydra.create_main_hydra_file_or_module.
    fold j. destruct (caller_search_path _ _ _); reflexivity.
  - rewrite initialize_config_module_eq. cbv zeta.
    destruct (caller_search_path _ _ _); reflexivity.
  - intros s. rewrite !initialize_config_module_eq. cbv zeta.
    destruct (caller_search_path _ _ _); by destruct w.
Qed.

Example config_module_synthetic_name :
  @initialize_config_module sample_builder "foo.bar.conf" (passed "job") (fresh []) =
    (Ret tt,
     installed {| searchPath :=
                    [ {| provider := "main"; path := "foo.bar.conf";
                         schema := PackageResource |}; sample_builtin ];
                  jobName := "job"; strict := None |} (fresh [])).
Proof. reflexivity. Qed.

(** ** Job names *)

Lemma initialize_derives_job_name `{SearchPathBuilder} cp s d w :
  wf w ->
  (initialize cp (passed None) s d w).1 = Ret tt ->
  exists cf cm st,
    detected w (arg_or 1%Z d) = Ret (cf, cm) /\
    registry (initialize cp (passed None) s d w).2 = Some (Some st) /\
    jobName st = detect_task_name cf cm.
Proof.
  intros Hw. rewrite initialize_eq, detected_eq.
  destruct (caller_frame w _) as [fr|]; [|done]. cbn zeta.
  destruct (caller_search_path _ _ _) as [e|csp]; [done|]. intros _.
  destruct (classify fr) as [cf cm] eqn:Ecl. cbn [arg_or fst snd].
  eexists cf, cm, _. split; [done|]. split; [by apply registry_installed|done].
Qed.

Lemma initialize_config_dir_derives_job_name `{SearchPathBuilder} dir jn d w :
  wf w -> arg_or None jn = None ->
  (initialize_config_dir dir jn d w).1 = Ret tt ->
  exists cf cm st,
    detected w (arg_or 1%Z d) = Ret (cf, cm) /\
    registry (initialize_config_dir dir jn d w).2 = Some (Some st) /\
    jobName st = detect_task_name cf cm.
Proof.
  intros Hw Hjn. rewrite initialize_config_dir_eq, detected_eq, Hjn.
  destruct (caller_frame w _) as [fr|]; [|done]. cbn zeta.
  destruct (classify fr) as [cf cm] eqn:Ecl. cbn [fst snd].
  destruct (os_path.isabs dir).
  - intros _. eexists cf, cm, _.
    split; [done|]. split; [by apply registry_installed|done].
  - destruct cm; [done|].
    destruct (caller_search_path _ _ _) as [e|csp]; [done|]. intros _.
    eexists cf, None, _.
    split; [done|]. split; [by apply registry_installed|done].
Qed.

(** C8: a successful call of [initialize] or [initialize_config_dir] with
    [job_name] [None] installs the job name that [detect_task_name] derives
    from the detected caller: the basename without extension of the calling
    file if there is one, else the last dotted component of the calling
    module, else ["app"]. *)
Theorem job_name_derived_from_caller `{SearchPathBuilder} (w : World) :
  wf w ->
  (forall cp s d,
     (initialize cp (passed None) s d w).1 = Ret tt ->
     exists cf cm st,
       detected w (arg_or 1%Z d) = Ret (cf, cm) /\
       registry (initialize cp (passed None) s d w).2 = Some (Some st) /\
       jobName st = detect_task_name cf cm) /\
  (forall dir jn d,
     arg_or None jn = None ->
     (initialize_config_dir dir jn d w).1 = Ret tt ->
     exists cf cm st,
       detected w (arg_or 1%Z d) = Ret (cf, cm) /\
       registry (initialize_config_dir dir jn d w).2 = Some (Some st) /\
       jobName st = detect_task_name cf cm) /\
  (forall f cm, detect_task_name (Some f) cm = splitext_root (basename f)) /\
  (forall m, detect_task_name None (Some m) = last_dotted_component m) /\
  detect_task_name None None = "app" /\
  detect_task_name (Some "/a/b/my_app.py") None = "my_app" /\
  detect_task_name None (Some "pkg.sub.runner") = "runner".
Proof.
  intros Hw. repeat split.
  - intros cp s d. by apply initialize_derives_job_name.
  - intros dir jn d. by apply initialize_config_dir_derives_job_name.
Qed.

Lemma job_name_derived_from_caller_witness :
  (exists cf cm st,
     detected script_world 1 = Ret (cf, cm) /\
     registry (@initialize sample_builder (passed (Some "conf")) (passed None)
                 omitted omitted script_world).2 = Some (Some st) /\
     jobName st = detect_task_name cf cm) /\
  (exists cf cm st,
     detected module_world 1 = Ret (cf, cm) /\
     registry (@initialize_config_dir sample_builder "/abs/dir" omitted omitted
                 module_world).2 = Some (Some st) /\
     jobName st = detect_task_name cf cm).
Proof.
  split.
  - apply (proj1 (@job_name_derived_from_caller sample_builder script_world
                    (wf_fresh _)) (passed (Some "conf")) omitted omitted eq_refl).
  - apply (proj1 (proj2 (@job_name_derived_from_caller sample_builder module_world
                           (wf_fresh _))) "/abs/dir" omitted omitted eq_refl eq_refl).
Defined.

Example job_name_from_script :
  jobName <$> mjoin (registry (@initialize sample_builder (passed (Some "conf"))
                                 (passed None) omitted omitted script_world).2)
  = Some "my_app".
Proof. reflexivity. Qed.

Example job_name_from_module :
  jobName <$> mjoin (registry (@initialize_config_dir sample_builder "/abs/dir"
                                 omitted omitted module_world).2)
  = Some "runner".
Proof. reflexivity. Qed.

Example job_name_from_notebook :
  jobName <$> mjoin (registry (@initialize_config_dir sample_builder "/abs/dir"
                                 omitted omitted notebook_world).2)
  = Some "app".
Proof. reflexivity. Qed.

(** ** The directory manager and its entry point *)

Lemma registry_installed_entered st s w :
  wf w -> registry (set_stack s (installed st (entered w))) = Some (Some st).
Proof.
  intros Hw. unfold registry; cbn. apply list_lookup_insert_eq.
  rewrite length_app. unfold wf in Hw. lia.
Qed.

(** What the body of the directory manager finds in the registry is what the
    entry point, called with the same directory and job name from the same
    place, leaves there; and both raise the same exceptions. *)
Lemma scoped_config_dir_observes `{SearchPathBuilder} dir j d w :
  (1 <= arg_or 1 d)%Z -> wf w ->
  (initialize_config_dir_ctx dir (passed j) d read_registry w).1 =
  installs (initialize_config_dir dir (passed j) d) w.
Proof.
  intros Hd Hw. rewrite initialize_config_dir_ctx_scoped, scoped_form_unfold.
  unfold installs. rewrite !initialize_config_dir_eq. cbn [arg_or].
  rewrite caller_frame_entered by done.
  destruct (caller_frame w _) as [fr|]; [|done]. cbn zeta.
  destruct (os_path.isabs dir).
  { unfold read_registry. cbn [fst snd].
    by rewrite registry_installed_entered, registry_installed. }
  destruct (classify fr).2; [done|].
  destruct (caller_search_path _ _ _) as [e|csp]; [done|].
  unfold read_registry. cbn [fst snd].
  by rewrite registry_installed_entered, registry_installed.
Qed.

Lemma scoped_config_dir_default_is_app `{SearchPathBuilder} dir d w o :
  wf w ->
  (initialize_config_dir_ctx dir omitted d read_registry w).1 = Ret o ->
  exists st, o = Some (Some st) /\ jobName st = "app".
Proof.
  intros Hw. rewrite initialize_config_dir_ctx_scoped, scoped_form_unfold.
  rewrite initialize_config_dir_eq. cbn [arg_or].
  destruct (caller_frame (entered w) _) as [fr|]; [|done]. cbn zeta.
  destruct (os_path.isabs dir).
  { unfold read_registry. cbn [fst snd].
    rewrite registry_installed_entered by done. intros [= <-]. eauto. }
  destruct (classify fr).2; [done|].
  destruct (caller_search_path _ _ _) as [e|csp]; [done|].
  unfold read_registry. cbn [fst snd].
  rewrite registry_installed_entered by done. intros [= <-]. eauto.
Qed.

(** C9: the job name of [initialize_config_dir_ctx] defaults to ["app"] and
    that of [initialize_config_dir] to [None].  So with the job name left out
    the manager installs the job name ["app"] whoever the caller is, while
    the entry point installs the name derived from the caller; with the same
    job name passed to both (and a depth that designates a caller) the body
    of the manager finds what the entry point installs, and both fail alike;
    with the job name left out they differ for a script caller such as
    [/a/b/my_app.py]. *)
Theorem scoped_config_dir_default_job_name `{SearchPathBuilder}
    (config_dir : string) (caller_stack_depth : arg Z) (w : World) :
  wf w ->
  (forall A (body : M A),
     initialize_config_dir_ctx config_dir omitted caller_stack_depth body =
     initialize_config_dir_ctx config_dir (passed (Some "app")) caller_stack_depth body) /\
  initialize_config_dir config_dir omitted caller_stack_depth =
    initialize_config_dir config_dir (passed None) caller_stack_depth /\
  (forall o,
     (initialize_config_dir_ctx config_dir omitted caller_stack_depth
        read_registry w).1 = Ret o ->
     exists st, o = Some (Some st) /\ jobName st = "app") /\
  ((initialize_config_dir config_dir omitted caller_stack_depth w).1 = Ret tt ->
   exists cf cm st,
     detected w (arg_or 1%Z caller_stack_depth) = Ret (cf, cm) /\
     registry (initialize_config_dir config_dir omitted caller_stack_depth w).2 =
       Some (Some st) /\
     jobName st = detect_task_name cf cm) /\
  ((1 <= arg_or 1 caller_stack_depth)%Z ->
   forall job_name,
     (initialize_config_dir_ctx config_dir (passed job_name) caller_stack_depth
        read_registry w).1 =
     installs (initialize_config_dir config_dir (passed job_name) caller_stack_depth) w) /\
  (exists st1 st2,
     (initialize_config_dir_ctx "/abs/dir" omitted omitted read_registry
        script_world).1 = Ret (Some (Some st1)) /\
     installs (initialize_config_dir "/abs/dir" omitted omitted) script_world =
       Ret (Some (Some st2)) /\
     jobName st1 = "app" /\ jobName st2 = "my_app").
Proof.
  intros Hw. repeat apply conj.
  - reflexivity.
  - reflexivity.
  - intros o. by apply scoped_config_dir_default_is_app.
  - by apply initialize_config_dir_derives_job_name.
  - intros Hd j. by apply scoped_config_dir_observes.
  - eexists _, _. repeat apply conj; reflexivity.
Qed.

Lemma scoped_config_dir_default_job_name_witness :
  (@initialize_config_dir_ctx sample_builder _ "conf" (passed (Some "x")) omitted
     read_registry script_world).1 =
  installs (@initialize_config_dir sample_builder "conf" (passed (Some "x")) omitted)
    script_world.
Proof.
  apply (proj1 (proj2 (proj2 (proj2 (proj2
           (@scoped_config_dir_default_job_name sample_builder "conf" omitted
              script_world (wf_fresh _)))))) (Z.le_refl 1) (Some "x")).
Defined.

Example scoped_default_from_script :
  (@initialize_config_dir_ctx sample_builder _ "conf" omitted omitted
     (let* r := read_registry in ret (jobName <$> mjoin r)) script_world).1
  = Ret (Some "app") /\
  jobName <$> mjoin (registry (@initialize_config_dir sample_builder "conf" omitted
                                 omitted script_world).2)
  = Some "my_app".
Proof. split; reflexivity. Qed.

(** ** More on the entry points *)

(** X1: a successful [initialize] installs the job name it was given (["app"]
    when none is given) whoever the caller is, the [strict] it was given, and
    the search path built for the detected caller and [config_path]. *)
Theorem initialize_installs_given_job_name `{SearchPathBuilder}
    (config_path : arg (option string)) (job_name : arg (option string))
    (strict_ : arg (option bool)) (caller_stack_depth : arg Z)
    (w : World) (j : string) :
  wf w ->
  arg_or (Some "app") job_name = Some j ->
  (initialize config_path job_name strict_ caller_stack_depth w).1 = Ret tt ->
  exists cf cm st,
    detected w (arg_or 1%Z caller_stack_depth) = Ret (cf, cm) /\
    registry (initialize config_path job_name strict_ caller_stack_depth w).2 =
      Some (Some st) /\
    jobName st = j /\
    strict st = arg_or None strict_ /\
    caller_search_path cf cm (arg_or None config_path) = inr (searchPath st).
Proof.
  intros Hw Hj. rewrite initialize_eq, detected_eq, Hj.
  destruct (caller_frame w _) as [fr|]; [|done]. cbn zeta.
  destruct (classify fr) as [cf cm] eqn:Ecl. cbn [fst snd].
  destruct (caller_search_path _ _ _) as [e|csp] eqn:Ecsp; [done|]. intros _.
  eexists cf, cm, _. split; [done|]. split; [by apply registry_installed|done].
Qed.

Lemma initialize_installs_given_job_name_witness :
  exists cf cm st,
    detected script_world 1 = Ret (cf, cm) /\
    registry (@initialize sample_builder (passed (Some "conf")) omitted
                (passed (Some true)) omitted script_world).2 = Some (Some st) /\
    jobName st = "app" /\
    strict st = Some true /\
    sample_caller_search_path cf cm (Some "conf") = inr (searchPath st).
Proof.
  apply (@initialize_installs_given_job_name sample_builder (passed (Some "conf"))
           omitted (passed (Some true)) omitted script_world "app"
           (wf_fresh _) eq_refl eq_refl).
Defined.

(** X2: [initialize] raises nothing of its own.  When it raises, either
    caller detection failed, and the world is as it was, or the exception is
    the one building the search path raised for the detected caller and
    [config_path]; neither a module caller nor an absolute [config_path] is
    rejected. *)
Theorem initialize_raises_only_for_collaborators `{SearchPathBuilder}
    (config_path : arg (option string)) (job_name : arg (option string))
    (strict_ : arg (option bool)) (caller_stack_depth : arg Z)
    (w : World) (e : exn) :
  (initialize config_path job_name strict_ caller_stack_depth w).1 = Raise e ->
  (detected w (arg_or 1%Z caller_stack_depth) = Raise e /\
   initialize config_path job_name strict_ caller_stack_depth w = (Raise e, w)) \/
  (exists cf cm,
     detected w (arg_or 1%Z caller_stack_depth) = Ret (cf, cm) /\
     caller_search_path cf cm (arg_or None config_path) = inl e).
Proof.
  rewrite initialize_eq, detected_eq.
  destruct (caller_frame w _) as [fr|].
  - cbn zeta. destruct (classify fr) as [cf cm] eqn:Ecl. cbn [fst snd].
    destruct (caller_search_path _ _ _) as [e'|csp] eqn:Ecsp; [|done].
    intros [= ->]. right. by exists cf, cm.
  - intros [= ->]. by left.
Qed.

Lemma initialize_raises_only_for_collaborators_witness :
  (detected notebook_world 1 = Raise (Exception "no anchor for the config path") /\
   @initialize sample_builder (passed (Some "conf")) omitted omitted omitted
     notebook_world =
     (Raise (Exception "no anchor for the config path"), notebook_world)) \/
  (exists cf cm,
     detected notebook_world 1 = Ret (cf, cm) /\
     sample_caller_search_path cf cm (Some "conf") =
       inl (Exception "no anchor for the config path")).
Proof.
  apply (@initialize_raises_only_for_collaborators sample_builder
           (passed (Some "conf")) omitted omitted omitted notebook_world
           (Exception "no anchor for the config path") eq_refl).
Defined.

(** X3: for a relative [config_dir] and a caller that is not a module,
    [initialize_config_dir] does exactly what [initialize] does with
    [config_path = config_dir], the same job name (derived from the caller
    when [None]) and no [strict]. *)
Theorem config_dir_relative_is_initialize `{SearchPathBuilder}
    (config_dir : string) (job_name : arg (option string))
    (caller_stack_depth : arg Z) (w : World) (calling_file : option string) :
  os_path.isabs config_dir = false ->
  detected w (arg_or 1%Z caller_stack_depth) = Ret (calling_file, None) ->
  initialize_config_dir config_dir job_name caller_stack_depth w =
  initialize (passed (Some config_dir)) (passed (arg_or None job_name)) omitted
    caller_stack_depth w.
Proof.
  intros Hrel Hdet. destruct (detected_Ret _ _ _ Hdet) as (fr & Hfr & Hcl).
  rewrite initialize_config_dir_eq, initialize_eq, Hfr, Hrel, Hcl.
  cbn [arg_or fst snd]. reflexivity.
Qed.

Lemma config_dir_relative_is_initialize_witness :
  @initialize_config_dir sample_builder "conf" omitted omitted script_world =
  @initialize sample_builder (passed (Some "conf")) (passed None) omitted omitted
    script_world.
Proof.
  apply (@config_dir_relative_is_initialize sample_builder "conf" omitted omitted
           script_world (Some "/a/b/my_app.py") eq_refl eq_refl).
Defined.

(** ** More on the managers *)

(** X4: the two levels [initialize_ctx] adds to [caller_stack_depth] make up
    for its own two frames: for a depth that designates a caller, the body of
    the manager finds in the registry exactly what [initialize], called from
    the same place with the same arguments, installs, and the manager raises
    what [initialize] raises.  This holds for the default job name too. *)
Theorem initialize_ctx_body_sees_initialize `{SearchPathBuilder}
    (config_path : arg (option string)) (job_name : arg (option string))
    (caller_stack_depth : arg Z) (w : World) :
  (1 <= arg_or 1 caller_stack_depth)%Z -> wf w ->
  (initialize_ctx config_path job_name caller_stack_depth read_registry w).1 =
  installs (initialize config_path job_name omitted caller_stack_depth) w.
Proof.
  intros Hd Hw. rewrite initialize_ctx_scoped, scoped_form_unfold.
  unfold installs. rewrite !initialize_eq. cbn [arg_or].
  rewrite caller_frame_entered by done.
  destruct (caller_frame w _) as [fr|]; [|done]. cbn zeta.
  destruct (caller_search_path _ _ _) as [e|csp]; [done|].
  unfold read_registry. cbn [fst snd].
  by rewrite registry_installed_entered, registry_installed.
Qed.

Lemma initialize_ctx_body_sees_initialize_witness :
  (@initialize_ctx sample_builder _ (passed (Some "conf")) (passed None) (passed 2%Z)
     read_registry
     (fresh [ModuleFrame "helper"; ScriptFrame "/a/b/my_app.py"])).1 =
  installs (@initialize sample_builder (passed (Some "conf")) (passed None) omitted
              (passed 2%Z))
    (fresh [ModuleFrame "helper"; ScriptFrame "/a/b/my_app.py"]).
Proof.
  apply (@initialize_ctx_body_sees_initialize sample_builder
           (passed (Some "conf")) (passed None) (passed 2%Z)
           (fresh [ModuleFrame "helper"; ScriptFrame "/a/b/my_app.py"])).
  - cbn. lia.
  - apply wf_fresh.
Defined.

(** X5: with a job name, the body of [initialize_config_module_ctx] finds in
    the registry exactly what [initialize_config_module] installs for the
    same module and job name, and the manager raises what it raises. *)
Theorem config_module_ctx_body_sees_entry `{SearchPathBuilder}
    (config_module : string) (job_name : arg (option string)) (j : string)
    (w : World) :
  wf w ->
  arg_or (Some "app") job_name = Some j ->
  (initialize_config_module_ctx config_module job_name read_registry w).1 =
  installs (initialize_config_module config_module (passed j)) w.
Proof.
  intros Hw Hj.
  rewrite (initialize_config_module_ctx_scoped config_module job_name j _ w Hj).
  rewrite scoped_form_unfold. unfold installs.
  rewrite !initialize_config_module_eq. cbn zeta.
  destruct (caller_search_path _ _ _) as [e|csp]; [done|].
  unfold read_registry. cbn [fst snd].
  by rewrite registry_installed_entered, registry_installed.
Qed.

Lemma config_module_ctx_body_sees_entry_witness :
  (@initialize_config_module_ctx sample_builder _ "pkg.conf" omitted read_registry
     module_world).1 =
  installs (@initialize_config_module sample_builder "pkg.conf" (passed "app"))
    module_world.
Proof.
  apply (@config_module_ctx_body_sees_entry sample_builder "pkg.conf" omitted "app"
           module_world (wf_fresh _) eq_refl).
Defined.

(** The shape of a manager does not depend on the body. *)
Lemma with_shape `{SearchPathBuilder} sc w :
  (exists init, client init /\
     forall A (body : M A), with_ sc body w = scoped_form init body w) \/
  (forall A (body : M A), with_ sc body w = (Raise (UnboundLocalError "gh"), w)).
Proof.
  destruct sc as [cp jn d|cm jn|dir jn d]; cbn [with_].
  - left. eexists. split; [apply client_initialize|].
    intros A body. by rewrite initialize_ctx_scoped.
  - destruct (arg_or (Some "app") jn) as [j|] eqn:Ej.
    + left. eexists. split; [apply client_initialize_config_module|].
      intros A body. by apply initialize_config_module_ctx_scoped.
    + right. destruct jn as [|[j|]]; [done..|].
      intros A body. apply initialize_config_module_ctx_None.
  - left. eexists. split; [apply client_initialize_config_dir|].
    intros A body. by rewrite initialize_config_dir_ctx_scoped.
Qed.

(** X6: when a manager around an empty body raises (its initialization
    failed), then around any body it raises the same exception and leaves the
    same world: the body of the [with] statement is not run. *)
Theorem manager_failure_skips_body `{SearchPathBuilder} {A}
    (sc : ScopedCall) (body : M A) (w : World) (e : exn) :
  (with_ sc (ret tt) w).1 = Raise e ->
  with_ sc body w = (Raise e, (with_ sc (ret tt) w).2).
Proof.
  destruct (with_shape sc w) as [(init & _ & Hshape)|Hnone].
  - rewrite !Hshape, !scoped_form_unfold.
    destruct (init (entered w)) as [[[]|e'] w2]; [done|].
    by intros [= ->].
  - rewrite !Hnone. by intros [= ->].
Qed.

Lemma manager_failure_skips_body_witness :
  @with_ sample_builder _ (WithConfigDir "conf" omitted omitted)
    (mutate (Install (sample_state "never"))) module_world =
  (Raise (HydraException relative_dir_message),
   (@with_ sample_builder _ (WithConfigDir "conf" omitted omitted) (ret tt)
      module_world).2).
Proof.
  apply (@manager_failure_skips_body sample_builder _
           (WithConfigDir "conf" omitted omitted)
           (mutate (Install (sample_state "never"))) module_world
           (HydraException relative_dir_message) eq_refl).
Defined.

(** X7: when the initialization of a manager succeeds, the [with] statement
    returns what its body returns and raises what its body raises: restoring
    the registry neither swallows nor replaces the outcome of the body.  The
    body runs in one world, the same for every body. *)
Theorem manager_outcome_is_body_outcome `{SearchPathBuilder}
    (sc : ScopedCall) (w : World) :
  wf w ->
  (with_ sc (ret tt) w).1 = Ret tt ->
  exists w_in, wf w_in /\
    forall A (body : M A), (with_ sc body w).1 = (body w_in).1.
Proof.
  intros Hw. destruct (with_shape sc w) as [(init & Hi & Hshape)|Hnone].
  - rewrite Hshape, scoped_form_unfold.
    pose proof (Hi (entered w) (wf_entered w Hw)) as Hi'.
    destruct (init (entered w)) as [[[]|e'] w2] eqn:Einit; [|done]. intros _.
    exists (set_stack (drop 2 (stack w2)) w2). split; [apply Hi'|].
    intros A body. rewrite Hshape, scoped_form_unfold, Einit.
    by destruct (body _).
  - by rewrite Hnone.
Qed.

Lemma manager_outcome_is_body_outcome_witness :
  exists w_in, wf w_in /\
    forall A (body : M A),
      (@with_ sample_builder A (WithConfigModule "pkg.conf" omitted) body
         script_world).1 = (body w_in).1.
Proof.
  apply (@manager_outcome_is_body_outcome sample_builder
           (WithConfigModule "pkg.conf" omitted) script_world
           (wf_fresh _) eq_refl).
Defined.

Lemma live_scoped_form {A} init (body : M A) w :
  live (scoped_form init body w).2 = length (heap w).
Proof.
  rewrite scoped_form_unfold.
  destruct (init (entered w)) as [[[]|e'] w2]; [|done].
  by destruct (body _).
Qed.

(** X8: after a manager that bound its snapshot, the singleton is the copy
    made at entry, an object that did not exist before the [with] statement,
    and not the object that was the singleton before; this holds whatever the
    body does, also when it replaces the singleton itself. *)
Theorem manager_exit_makes_copy_singleton `{SearchPathBuilder} {A}
    (sc : ScopedCall) (body : M A) (w : World) :
  wf w ->
  binds_gh sc = true ->
  live (with_ sc body w).2 = length (heap w) /\
  live (with_ sc body w).2 <> live w.
Proof.
  intros Hw Hsc.
  assert (Hlive : live (with_ sc body w).2 = length (heap w)).
  { destruct sc as [cp jn d|cm jn|dir jn d]; cbn [with_].
    - rewrite initialize_ctx_scoped. apply live_scoped_form.
    - destruct (arg_or (Some "app") jn) as [j|] eqn:Ej.
      + rewrite (initialize_config_module_ctx_scoped cm jn j body w Ej).
        apply live_scoped_form.
      + by destruct jn as [|[j|]].
    - rewrite initialize_config_dir_ctx_scoped. apply live_scoped_form. }
  split; [done|]. rewrite Hlive. unfold wf in Hw. lia.
Qed.

Lemma manager_exit_makes_copy_singleton_witness :
  live (@with_ sample_builder _ (WithInitialize (passed (Some "conf")) omitted omitted)
          (GlobalHydra.set_instance 0) script_world).2 =
    length (heap script_world) /\
  live (@with_ sample_builder _ (WithInitialize (passed (Some "conf")) omitted omitted)
          (GlobalHydra.set_instance 0) script_world).2 <> live script_world.
Proof.
  apply (@manager_exit_makes_copy_singleton sample_builder _
           (WithInitialize (passed (Some "conf")) omitted omitted)
           (GlobalHydra.set_instance 0) script_world (wf_fresh _) eq_refl).
Defined.

(** X9: [initialize_config_module_ctx] called with [job_name=None] fails its
    assertion before [gh] is bound, so the [finally] block fails in turn: the
    caller sees [UnboundLocalError] and not the [AssertionError], the body is
    not run and the world is as it was. *)
Theorem config_module_ctx_None_masks_assertion `{SearchPathBuilder} {A}
    (config_module : string) (body : M A) (w : World) :
  let r := initialize_config_module_ctx config_module (passed None) body w in
  r.1 = Raise (UnboundLocalError "gh") /\
  r.1 <> Raise AssertionError /\
  r.2 = w.
Proof. destruct w as [h l s]. by repeat split. Qed.

(** X10: managers nest to any depth: whatever managers are stacked inside a
    manager, and whatever the innermost body does as a client, the registry
    after the outermost [with] statement is the registry before it. *)
Theorem nested_managers_restore `{SearchPathBuilder} {A}
    (sc : ScopedCall) (scs : list ScopedCall) (body : M A) (w : World) :
  client body -> wf w ->
  registry (with_ sc (nest scs body) w).2 = registry w.
Proof.
  intros Hb Hw. apply with_restores; [|done].
  clear sc w Hw. induction scs as [|sc scs IH]; cbn [nest foldr]; [done|].
  by apply client_with.
Qed.

Lemma nested_managers_restore_witness :
  registry (@with_ sample_builder _ (WithInitialize (passed (Some "conf")) omitted omitted)
              (@nest sample_builder _
                 [WithConfigModule "pkg.conf" omitted;
                  WithConfigDir "/abs/dir" omitted omitted;
                  WithConfigModule "pkg.conf" (passed None)]
                 failing_body)
              script_world).2 = registry script_world.
Proof.
  apply (@nested_managers_restore sample_builder _
           (WithInitialize (passed (Some "conf")) omitted omitted)
           [WithConfigModule "pkg.conf" omitted;
            WithConfigDir "/abs/dir" omitted omitted;
            WithConfigModule "pkg.conf" (passed None)]
           failing_body script_world client_failing_body (wf_fresh _)).
Defined.

(** X11: the directory manager rejects what its entry point rejects: with a
    relative [config_dir], a depth that designates a caller and a module
    caller, the [with] statement raises the [HydraException] of the
    unsupported caller, its body is not run, and the registry is as before. *)
Theorem config_dir_ctx_rejects_module_caller `{SearchPathBuilder} {A}
    (config_dir : string) (job_name : arg (option string))
    (caller_stack_depth : arg Z) (body : M A) (w : World)
    (calling_file : option string) (calling_module : string) :
  wf w ->
  (1 <= arg_or 1 caller_stack_depth)%Z ->
  os_path.isabs config_dir = false ->
  detected w (arg_or 1%Z caller_stack_depth) = Ret (calling_file, Some calling_module) ->
  let r := initialize_config_dir_ctx config_dir job_name caller_stack_depth body w in
  r.1 = Raise (HydraException relative_dir_message) /\
  registry r.2 = registry w /\
  heap r.2 = (heap w ++ [mjoin (registry w)])%list.
Proof.
  intros Hw Hd Hrel Hdet r. unfold r.
  destruct (detected_Ret _ _ _ Hdet) as (fr & Hfr & Hcl).
  rewrite initialize_config_dir_ctx_scoped, scoped_form_unfold.
  rewrite initialize_config_dir_eq. cbn [arg_or].
  rewrite caller_frame_entered, Hfr, Hrel, Hcl by done. cbn [fst snd].
  split; [done|]. split; [|done].
  unfold registry, exited; cbn [heap live]. by apply snapshot_content.
Qed.

Lemma config_dir_ctx_rejects_module_caller_witness :
  let r := @initialize_config_dir_ctx sample_builder _ "conf" omitted omitted
             (mutate (Install (sample_state "never"))) module_world in
  r.1 = Raise (HydraException relative_dir_message) /\
  registry r.2 = registry module_world /\
  heap r.2 = (heap module_world ++ [mjoin (registry module_world)])%list.
Proof.
  apply (@config_dir_ctx_rejects_module_caller sample_builder _ "conf" omitted omitted
           (mutate (Install (sample_state "never"))) module_world
           None "pkg.sub.runner" (wf_fresh _) (Z.le_refl 1) eq_refl eq_refl).
Defined.
